(** * The thermal notebook of BART (notebooks/thermal/Thermal.ipynb)

    The notebook is a Python 2 script in eight code cells.  It builds a
    configuration dictionary, loads a trace with [trappy.Run], builds an
    [Analyzer] over both, and evaluates six statements through it.

    The embedding follows the script statement by statement:
    - Python values are [pyval]; the global names of the notebook live in
      a [gmap string pyval]; dictionaries are objects on a heap, so that
      the [config] the [Analyzer] received and the [config] the notebook
      holds are one object;
    - the code runs in a state-and-exception monad [M]; what the notebook
      does to the outside (imports, calls into the libraries, printed
      lines, displayed cell values) is recorded in order in [events];
    - the libraries are a function [lib] from a call (callee, arguments,
      and the dict objects as they are at the call) to its answer, a
      variable of the development: a theorem that holds for every [lib]
      holds for every trace and every behaviour of the libraries in
      which equal calls get equal answers. *)

From Stdlib Require Import QArith.
From Stdlib Require Import Ascii String.
From stdpp Require Import gmap strings list.

Local Open Scope string_scope.

(** ** Python values *)

#[warnings="-register-all"] Inductive pyval : Type :=
| VNone
| VBool (b : bool)
| VInt (z : Z)
| VNum (q : Q)                                (* a float *)
| VStr (s : string)
| VRef (l : nat)                              (* a dict object *)
| VExt (module : string)                      (* an imported library module *)
| VInst (cls : string) (init : list pyval)    (* instance of a library class *)
| VAttr (self : pyval) (name : string)        (* [self.name] of a library object *)
| VIndex (ix : list nat)                      (* index of samples *)
| VMask (bs : list bool)                      (* boolean series *)
| VSeries (xs : list Q).                      (* numeric series *)

Record exn := Exn { exn_class : string; exn_arg : string }.

Definition NameError (name : string) : exn := Exn "NameError" name.
Definition TypeError (what : string) : exn := Exn "TypeError" what.

Abbreviation dict := (gmap string pyval).
Abbreviation store := (gmap nat (gmap string pyval)).

(** ** The libraries *)

Inductive answer : Type :=
| Returns (v : pyval)
| Raises (e : exn).

Record call := Call {
  callee : pyval;
  args : list pyval;
  kwargs : list (string * pyval);
  seen : store                       (* the dict objects at the time of the call *)
}.

Definition Library := call → answer.

(** ** Notebook state and events *)

Inductive event : Type :=
| EvImport (module : string)
| EvCall (c : call)
| EvPrint (line : string)
| EvDisplay (v : pyval).

Record nb_state := State {
  globals : gmap string pyval;
  heap : gmap nat (gmap string pyval);
  events : list event
}.

Definition initial : nb_state := State ∅ ∅ [].

Inductive outcome (A : Type) : Type :=
| Done (a : A)
| Raised (e : exn).
Arguments Done {A} a.
Arguments Raised {A} e.

Definition M (A : Type) : Type := nb_state → outcome A * nb_state.

#[global] Instance M_ret : MRet M := λ A a s, (Done a, s).
#[global] Instance M_bind : MBind M := λ A B f m s,
  match m s with
  | (Done a, s') => f a s'
  | (Raised e, s') => (Raised e, s')
  end.

Definition emit (ev : event) : M unit :=
  λ s, (Done tt, State (globals s) (heap s) (events s ++ [ev])).

(** ** Python primitives the notebook uses *)

(** Reading a global name. *)
Definition load (name : string) : M pyval := λ s,
  match globals s !! name with
  | Some v => (Done v, s)
  | None => (Raised (NameError name), s)
  end.

(** [name = v] *)
Definition assign (name : string) (v : pyval) : M unit :=
  λ s, (Done tt, State (<[name := v]> (globals s)) (heap s) (events s)).

(** [{}] : a new dict object. *)
Definition new_dict : M pyval := λ s,
  let l := fresh (dom (heap s)) in
  (Done (VRef l), State (globals s) (<[l := ∅]> (heap s)) (events s)).

(** [d[key] = v] on a dict object. *)
Definition setitem (d : pyval) (key : string) (v : pyval) : M unit := λ s,
  match d with
  | VRef l =>
      match heap s !! l with
      | Some m => (Done tt, State (globals s) (<[l := <[key := v]> m]> (heap s)) (events s))
      | None => (Raised (TypeError "setitem"), s)
      end
  | _ => (Raised (TypeError "setitem"), s)
  end.

(** [v.a] : the notebook takes attributes of library objects only
    (members of a module, methods of an instance); which object that is
    is the library's business, so the attribute stays symbolic. *)
Definition getattr (v : pyval) (a : string) : pyval := VAttr v a.

(** [import m] and [from m import a] run the module's library and bind
    one name. *)
Definition import_ (module : string) : M unit :=
  emit (EvImport module);; assign module (VExt module).

Definition from_import (module a : string) : M unit :=
  emit (EvImport module);; assign a (getattr (VExt module) a).

(** [print "line"] (the Python 2 statement). *)
Definition print (line : string) : M unit := emit (EvPrint line).

(** The value of a cell's last expression, which IPython shows as the
    cell's [Out]. *)
Definition display (v : pyval) : M unit := emit (EvDisplay v).

(** [len(v)] *)
Definition py_len (h : store) (v : pyval) : option nat :=
  match v with
  | VStr s => Some (String.length s)
  | VRef l => size <$> h !! l
  | VIndex ix => Some (length ix)
  | VMask bs => Some (length bs)
  | VSeries xs => Some (length xs)
  | _ => None
  end.

Definition len (v : pyval) : M nat := λ s,
  match py_len (heap s) v with
  | Some n => (Done n, s)
  | None => (Raised (TypeError "len"), s)
  end.

(** [if n:] on an integer. *)
Definition truthy (n : nat) : bool := negb (n =? 0)%nat.

Section Notebook.

(** The behaviour of trappy and of the Analyzer on the trace at hand. *)
Variable lib : Library.

(** [f(args, kw=...)] where [f] belongs to a library. *)
Definition invoke (f : pyval) (a : list pyval) (kw : list (string * pyval)) : M pyval := λ s,
  let c := Call f a kw (heap s) in
  let s' := State (globals s) (heap s) (events s ++ [EvCall c]) in
  match lib c with
  | Returns v => (Done v, s')
  | Raises e => (Raised e, s')
  end.

(** *** Cell 1: Configuration *)

Definition event_class (key : string) (path : list string) : M unit :=
  m ← load "trappy";
  d ← load "config";
  setitem d key (foldl getattr m path).

Definition constant (key : string) (z : Z) : M unit :=
  d ← load "config";
  setitem d key (VInt z).

(** The cell with the last two constants left open; the notebook sets
    them to 95 and 5. *)
Definition cell_configuration_with (temp_qrt std_pct : Z) : M unit :=
  import_ "trappy";;
  (d ← new_dict; assign "config" d);;
  event_class "THERMAL" ["thermal"; "Thermal"];;
  event_class "OUT" ["cpu_power"; "CpuOutPower"];;
  event_class "IN" ["cpu_power"; "CpuInPower"];;
  event_class "PID" ["pid_controller"; "PIDController"];;
  event_class "GOVERNOR" ["thermal"; "ThermalGovernor"];;
  constant "CONTROL_TEMP" 77000;;
  constant "TEMP_MARGIN" 2500;;
  constant "SUSTAINABLE_POWER" 2500;;
  constant "EXPECTED_TEMP_QRT" temp_qrt;;
  constant "EXPECTED_STD_PCT" std_pct.

Definition cell_configuration : M unit := cell_configuration_with 95 5.

(** *** Cell 2: Run Object *)

Definition cell_run_object : M unit :=
  assign "TRACE" (VStr "/Users/kapileshwarsingh/AnalysisRawData/LPC/thermal");;
  (m ← load "trappy";
   p ← load "TRACE";
   r ← invoke (getattr m "Run") [p; VStr "SomeBenchMark"] [];
   assign "run" r).

(** *** Cell 3: the Analyzer *)

Definition cell_analyzer : M unit :=
  from_import "bart.common.Analyzer" "Analyzer";;
  (f ← load "Analyzer";
   r ← load "run";
   c ← load "config";
   a ← invoke f [r; c] [];
   assign "t" a);;
  assign "BIG" (VStr "000000f0");;
  assign "LITTLE" (VStr "0000000f").

(** *** Cell 4: Load and Dynamic Power *)

(** The statement string of lines 127-128 and of lines 135-136: the
    backslash joins the two source lines inside the literal. *)
Definition stmt_load_power : string :=
  "((IN:load0 + IN:load1 + IN:load2 + IN:load3) == 0)                 & (IN:dynamic_power > 0)".

Definition PASS_BIG := "PASS: Dynamic Power is Zero when load is Zero for the BIG cluster".
Definition FAIL_BIG := "FAIL: Dynamic Power is NOT Zero when load is Zero for the BIG cluster".
Definition PASS_LITTLE := "PASS: Dynamic Power is Zero when load is Zero for the LITTLE cluster".
Definition FAIL_LITTLE := "FAIL: Dynamic Power is NOT Zero when load is Zero for the LITTLE cluster".

Definition check_big : M unit :=
  (t ← load "t";
   big ← load "BIG";
   r ← invoke (getattr t "getStatement") [VStr stmt_load_power]
         [("reference", VBool true); ("select", big)];
   assign "result" r);;
  (r ← load "result";
   n ← len r;
   if truthy n then print FAIL_BIG else print PASS_BIG).

Definition check_little : M unit :=
  (t ← load "t";
   big ← load "BIG";
   r ← invoke (getattr t "getStatement") [VStr stmt_load_power]
         [("reference", VBool true); ("select", big)];
   assign "result" r);;
  (r ← load "result";
   n ← len r;
   if truthy n then print FAIL_LITTLE else print PASS_LITTLE).

Definition cell_load_power : M unit := check_big;; check_little.

(** *** Cell 5: Control Temperature and Sustainable Power *)

Definition stmt_governor : string :=
  "(GOVERNOR:current_temperature > CONTROL_TEMP) &            (PID:output > SUSTAINABLE_POWER)".

Definition PASS_GOVERNOR :=
  "PASS: The Governor is allocating power <= sustainable when T > CONTROL_TEMP".
Definition FAIL_GOVERNOR :=
  "FAIL: The Governor is allocating power > sustainable when T > CONTROL_TEMP".

Definition check_governor : M unit :=
  (t ← load "t";
   r ← invoke (getattr t "getStatement") [VStr stmt_governor]
         [("reference", VBool true); ("select", VInt 0)];
   assign "result" r);;
  (r ← load "result";
   n ← len r;
   if truthy n then print FAIL_GOVERNOR else print PASS_GOVERNOR).

(** *** Cells 6 to 8: Statistics *)

Definition stmt_percentile : string :=
  "numpy.percentile(THERMAL:temp, 95) < (CONTROL_TEMP + TEMP_MARGIN)".
Definition stmt_mean : string :=
  "numpy.mean(THERMAL:temp) <= CONTROL_TEMP".
Definition stmt_std_pct : string :=
  "(numpy.std(THERMAL:temp) * 100.0) / numpy.mean(THERMAL:temp)".

Definition cell_percentile : M unit :=
  t ← load "t";
  v ← invoke (getattr t "assertStatement") [VStr stmt_percentile] [];
  display v.

Definition cell_mean : M unit :=
  t ← load "t";
  v ← invoke (getattr t "assertStatement") [VStr stmt_mean] [("select", VInt 0)];
  display v.

Definition cell_std_pct : M unit :=
  t ← load "t";
  v ← invoke (getattr t "getStatement") [VStr stmt_std_pct] [("select", VInt 0)];
  display v.

(** *** The notebook, cells run in order *)

Definition setup_with (temp_qrt std_pct : Z) : M unit :=
  cell_configuration_with temp_qrt std_pct;; cell_run_object;; cell_analyzer.

Definition assertions : M unit :=
  cell_load_power;; check_governor;; cell_percentile;; cell_mean;; cell_std_pct.

Definition notebook_with (temp_qrt std_pct : Z) : M unit :=
  setup_with temp_qrt std_pct;; assertions.

Definition notebook : M unit := notebook_with 95 5.

End Notebook.

(** ** Reading the record of a run *)

Definition calls (evs : list event) : list call :=
  omap (λ ev, match ev with EvCall c => Some c | _ => None end) evs.
Definition printed (evs : list event) : list string :=
  omap (λ ev, match ev with EvPrint l => Some l | _ => None end) evs.
Definition displayed (evs : list event) : list pyval :=
  omap (λ ev, match ev with EvDisplay v => Some v | _ => None end) evs.
Definition imports (evs : list event) : list string :=
  omap (λ ev, match ev with EvImport m => Some m | _ => None end) evs.

(** A call of the attribute [name] of some object. *)
Definition is_call_of (name : string) (c : call) : bool :=
  match callee c with
  | VAttr _ a => String.eqb a name
  | _ => false
  end.

(** The two entry points of the Analyzer that evaluate a statement. *)
Definition is_entry (c : call) : bool :=
  is_call_of "getStatement" c || is_call_of "assertStatement" c.

Definition is_verdict (line : string) : bool :=
  String.prefix "PASS:" line || String.prefix "FAIL:" line.

(** A call is an assertion when it is an [assertStatement], or a
    [getStatement] whose answer the notebook turns into a PASS or FAIL
    line right after it. *)
Fixpoint assertion_calls (evs : list event) : nat :=
  match evs with
  | [] => 0
  | EvCall c :: rest =>
      (if is_call_of "assertStatement" c then 1
       else if is_call_of "getStatement" c then
         match rest with
         | EvPrint l :: _ => if is_verdict l then 1 else 0
         | _ => 0
         end
       else 0) + assertion_calls rest
  | _ :: rest => assertion_calls rest
  end%nat.

(** The dictionary cell 1 builds. *)
Definition trappy_class (path : list string) : pyval :=
  foldl getattr (VExt "trappy") path.

Definition thermal_config (temp_qrt std_pct : Z) : gmap string pyval :=
  <["EXPECTED_STD_PCT" := VInt std_pct]> (
  <["EXPECTED_TEMP_QRT" := VInt temp_qrt]> (
  <["SUSTAINABLE_POWER" := VInt 2500]> (
  <["TEMP_MARGIN" := VInt 2500]> (
  <["CONTROL_TEMP" := VInt 77000]> (
  <["GOVERNOR" := trappy_class ["thermal"; "ThermalGovernor"]]> (
  <["PID" := trappy_class ["pid_controller"; "PIDController"]]> (
  <["IN" := trappy_class ["cpu_power"; "CpuInPower"]]> (
  <["OUT" := trappy_class ["cpu_power"; "CpuOutPower"]]> (
  <["THERMAL" := trappy_class ["thermal"; "Thermal"]]> ∅))))))))).

(** The dotted name of a member of a library module. *)
Fixpoint qualname (v : pyval) : option string :=
  match v with
  | VExt m => Some m
  | VAttr o a => (λ q, q +:+ "." +:+ a) <$> qualname o
  | _ => None
  end.

(** ** The statement evaluator behind the Analyzer *)

(** The notebook hands its statements to [bart.common.Analyzer], which
    the spec describes as a generic expression evaluator over named trace
    events, with percentile and statistics operators.  Neither
    bart/common/Analyzer.py, nor the grammar it parses statements with,
    nor trappy, nor numpy is among the sources.  What follows models
    them as far as the six statements of the notebook need: a statement
    is built from numbers, names of [config], columns [EVENT:column] of
    an event class of [config], calls of library functions, and infix
    arithmetic, comparison and [&], [|]. *)

(** Modelled from the spec: the infix operators of a statement (the
    grammar of the evaluator is not among the sources). *)
Inductive binop := Add | Sub | Mul | Div | Eq | Ne | Lt | Le | Gt | Ge | And | Or.

(** Modelled from the spec: the syntax of a statement (the grammar of the
    evaluator is not among the sources). *)
#[warnings="-register-all"] Inductive expr : Type :=
| ENum (q : Q)
| EVar (name : string)
| ECol (event column : string)
| ECall (func : string) (actuals : list expr)
| EBin (op : binop) (l r : expr).

(** Modelled from the spec: the words of a statement (the grammar of the
    evaluator is not among the sources). *)
Inductive token : Type :=
| TNum (q : Q)
| TName (s : string)
| TColon | TComma | TOpen | TClose
| TOp (op : binop).

(** Modelled from the spec: the classes of characters of a statement
    (the grammar of the evaluator is not among the sources); a name may
    hold dots, as [numpy.mean] does. *)
Definition code (c : ascii) : nat := nat_of_ascii c.

(** Modelled from the spec: a blank of a statement, as above. *)
Definition is_space (c : ascii) : bool :=
  (code c =? 32)%nat || (code c =? 10)%nat || (code c =? 9)%nat.

(** Modelled from the spec: a decimal digit of a statement, as above. *)
Definition is_digit (c : ascii) : bool := (48 <=? code c)%nat && (code c <=? 57)%nat.

(** Modelled from the spec: a letter or underscore of a statement, as
    above. *)
Definition is_alpha (c : ascii) : bool :=
  (65 <=? code c)%nat && (code c <=? 90)%nat
  || (97 <=? code c)%nat && (code c <=? 122)%nat
  || (code c =? 95)%nat.

(** Modelled from the spec: a character of a name of a statement, the
    dot included, as above. *)
Definition is_name_char (c : ascii) : bool := is_alpha c || is_digit c || (code c =? 46)%nat.

(** Modelled from the spec: the longest prefix of characters of a class
    (the grammar of the evaluator is not among the sources). *)
Fixpoint span (p : ascii → bool) (s : string) : string * string :=
  match s with
  | EmptyString => (EmptyString, EmptyString)
  | String c r =>
      if p c then let '(a, b) := span p r in (String c a, b)
      else (EmptyString, s)
  end.

(** Modelled from the spec: the value of a run of decimal digits (the
    grammar of the evaluator is not among the sources). *)
Fixpoint digits (acc : Z) (s : string) : Z :=
  match s with
  | EmptyString => acc
  | String c r => digits (10 * acc + Z.of_nat (code c - 48)) r
  end.

(** Modelled from the spec: a number, [ddd] or [ddd.ddd] (the grammar of
    the evaluator is not among the sources). *)
Definition number (s : string) : string * Q :=
  let '(int, rest) := span is_digit s in
  match rest with
  | String "." frac =>
      let '(dec, rest') := span is_digit frac in
      (rest', Qred (Qmake (digits (digits 0 int) dec) (Pos.pow 10 (Pos.of_nat (String.length dec)))))
  | _ => (rest, inject_Z (digits 0 int))
  end.

(** Modelled from the spec: the operators and punctuation of a statement
    (the grammar of the evaluator is not among the sources). *)
Definition operator (s : string) : option (token * string) :=
  match s with
  | String "=" (String "=" r) => Some (TOp Eq, r)
  | String "!" (String "=" r) => Some (TOp Ne, r)
  | String "<" (String "=" r) => Some (TOp Le, r)
  | String ">" (String "=" r) => Some (TOp Ge, r)
  | String "<" r => Some (TOp Lt, r)
  | String ">" r => Some (TOp Gt, r)
  | String "+" r => Some (TOp Add, r)
  | String "-" r => Some (TOp Sub, r)
  | String "*" r => Some (TOp Mul, r)
  | String "/" r => Some (TOp Div, r)
  | String "&" r => Some (TOp And, r)
  | String "|" r => Some (TOp Or, r)
  | String "(" r => Some (TOpen, r)
  | String ")" r => Some (TClose, r)
  | String ":" r => Some (TColon, r)
  | String "," r => Some (TComma, r)
  | _ => None
  end.

(** Modelled from the spec: a statement cut into words, blanks skipped
    (the grammar of the evaluator is not among the sources). *)
Fixpoint lex (fuel : nat) (s : string) : option (list token) :=
  match fuel, s with
  | _, EmptyString => Some []
  | O, _ => None
  | S fuel, String c r =>
      if is_space c then lex fuel r
      else if is_digit c then
        let '(rest, q) := number s in (TNum q ::.) <$> lex fuel rest
      else if is_alpha c then
        let '(name, rest) := span is_name_char s in (TName name ::.) <$> lex fuel rest
      else '(t, rest) ← operator s; (t ::.) <$> lex fuel rest
  end.

(** Modelled from the spec: the binding strength of the infix operators,
    weakest first (the grammar of the evaluator is not among the
    sources). *)
Definition level (op : binop) : nat :=
  match op with
  | And | Or => 0
  | Eq | Ne | Lt | Le | Gt | Ge => 1
  | Add | Sub => 2
  | Mul | Div => 3
  end.

Abbreviation parsed A := (option (A * list token)).

(** Modelled from the spec: the parser of statements (the grammar of the
    evaluator is not among the sources).  [parsers n] is the triple of:
    an expression of a level, the operators that continue a left operand
    at a level, and the rest of an argument list. *)
Fixpoint parsers (fuel : nat) :
    (nat → list token → parsed expr) *
    (nat → expr → list token → parsed expr) *
    (list token → parsed (list expr)) :=
  match fuel with
  | O => (λ _ _, None, λ _ _ _, None, λ _, None)
  | S fuel =>
      let '(p_expr, p_more, p_args) := parsers fuel in
      (λ lvl ts,
         if (4 <=? lvl)%nat then
           match ts with
           | TNum q :: ts => Some (ENum q, ts)
           | TName e :: TColon :: TName c :: ts => Some (ECol e c, ts)
           | TName f :: TOpen :: TClose :: ts => Some (ECall f [], ts)
           | TName f :: TOpen :: ts =>
               '(a, ts) ← p_expr 0%nat ts;
               '(more, ts) ← p_args ts;
               Some (ECall f (a :: more), ts)
           | TName x :: ts => Some (EVar x, ts)
           | TOpen :: ts =>
               '(e, ts) ← p_expr 0%nat ts;
               match ts with
               | TClose :: ts => Some (e, ts)
               | _ => None
               end
           | _ => None
           end
         else
           '(l, ts) ← p_expr (S lvl) ts; p_more lvl l ts,
       λ lvl l ts,
         match ts with
         | TOp op :: ts' =>
             if (level op =? lvl)%nat then
               '(r, ts') ← p_expr (S lvl) ts'; p_more lvl (EBin op l r) ts'
             else Some (l, ts)
         | _ => Some (l, ts)
         end,
       λ ts,
         match ts with
         | TClose :: ts => Some ([], ts)
         | TComma :: ts =>
             '(a, ts) ← p_expr 0%nat ts;
             '(more, ts) ← p_args ts;
             Some (a :: more, ts)
         | _ => None
         end)
  end.

(** Modelled from the spec: a statement string read as an expression
    (the grammar of the evaluator is not among the sources). *)
Definition parse (s : string) : option expr :=
  ts ← lex (S (String.length s)) s;
  '(e, rest) ← (parsers (8 * S (length ts))).1.1 0%nat ts;
  match rest with [] => Some e | _ => None end.

(** Modelled from the spec: the trace a run holds, as the evaluator reads
    it (trappy is not among the sources).  Each event class has a table
    of samples, grouped by the value [select] chooses among (the cluster
    mask of the cpu power events, the id of a thermal zone); a sample
    gives a number for every column. *)
Definition sample := string → Q.

(** Modelled from the spec: the samples of one event class, group by
    group, in the order of the trace (trappy is not among the sources). *)
Definition table := list (pyval * list sample).

(** Modelled from the spec: the tables of a trace, by the dotted name of
    the event class (trappy is not among the sources). *)
Definition trace := string → table.

(** Modelled from the spec: the functions of numpy the statements name
    (numpy is not among the sources); their values on a series are taken
    as given, a float being the rational it denotes. *)
Record numpy := Numpy {
  percentile : list Q → Q → Q;
  mean : list Q → Q;
  std : list Q → Q
}.

#[global] Instance outcome_ret : MRet outcome := λ A a, Done a.
#[global] Instance outcome_bind : MBind outcome := λ A B f m,
  match m with
  | Done a => f a
  | Raised e => Raised e
  end.

(** Modelled from the spec: whether [select] names a group of samples
    (trappy is not among the sources). *)
Definition same_group (p k : pyval) : bool :=
  match p, k with
  | VStr a, VStr b => String.eqb a b
  | VInt a, VInt b => Z.eqb a b
  | _, _ => false
  end.

(** Modelled from the spec: the samples [select] keeps, those of one
    group, or all of them without it (trappy is not among the
    sources). *)
Definition selected (select : option pyval) (tb : table) : list sample :=
  concat (omap (λ g, match select with
                     | None => Some g.2
                     | Some p => if same_group p g.1 then Some g.2 else None
                     end) tb).

(** [x < y] on rationals, as a truth value. *)
Definition Qlt_bool (x y : Q) : bool := negb (Qle_bool y x).

(** Modelled from the spec: an infix operator on its operands (the
    evaluator is not among the sources).  Operands are a number or a
    series; a number meets a series sample by sample, two series are
    paired in order. *)
Definition lift_num (f : Q → Q → Q) (x y : pyval) : outcome pyval :=
  match x, y with
  | VNum a, VNum b => Done (VNum (f a b))
  | VSeries xs, VNum b => Done (VSeries ((λ a, f a b) <$> xs))
  | VNum a, VSeries ys => Done (VSeries (f a <$> ys))
  | VSeries xs, VSeries ys => Done (VSeries (zip_with f xs ys))
  | _, _ => Raised (TypeError "arithmetic")
  end.

(** Modelled from the spec: a comparison on its operands, in the same
    way (the evaluator is not among the sources). *)
Definition lift_cmp (f : Q → Q → bool) (x y : pyval) : outcome pyval :=
  match x, y with
  | VNum a, VNum b => Done (VBool (f a b))
  | VSeries xs, VNum b => Done (VMask ((λ a, f a b) <$> xs))
  | VNum a, VSeries ys => Done (VMask (f a <$> ys))
  | VSeries xs, VSeries ys => Done (VMask (zip_with f xs ys))
  | _, _ => Raised (TypeError "comparison")
  end.

(** Modelled from the spec: [&] and [|] on truth values and masks (the
    evaluator is not among the sources). *)
Definition lift_bool (f : bool → bool → bool) (x y : pyval) : outcome pyval :=
  match x, y with
  | VBool a, VBool b => Done (VBool (f a b))
  | VMask xs, VBool b => Done (VMask ((λ a, f a b) <$> xs))
  | VBool a, VMask ys => Done (VMask (f a <$> ys))
  | VMask xs, VMask ys => Done (VMask (zip_with f xs ys))
  | _, _ => Raised (TypeError "logical")
  end.

(** Modelled from the spec: a divisor that is zero somewhere; what numpy
    answers then (an infinity or nan) is outside the model, which raises
    (the evaluator is not among the sources). *)
Definition has_zero (y : pyval) : bool :=
  match y with
  | VNum b => Qeq_bool b 0
  | VSeries ys => existsb (λ b, Qeq_bool b 0) ys
  | _ => false
  end.

(** Modelled from the spec: the meaning of each infix operator (the
    evaluator is not among the sources). *)
Definition apply_binop (op : binop) (x y : pyval) : outcome pyval :=
  match op with
  | Add => lift_num Qplus x y
  | Sub => lift_num Qminus x y
  | Mul => lift_num Qmult x y
  | Div => if has_zero y then Raised (Exn "ZeroDivisionError" "") else lift_num Qdiv x y
  | Eq => lift_cmp Qeq_bool x y
  | Ne => lift_cmp (λ a b, negb (Qeq_bool a b)) x y
  | Lt => lift_cmp Qlt_bool x y
  | Le => lift_cmp Qle_bool x y
  | Gt => lift_cmp (λ a b, Qlt_bool b a) x y
  | Ge => lift_cmp (λ a b, Qle_bool b a) x y
  | And => lift_bool andb x y
  | Or => lift_bool orb x y
  end.

Section Evaluator.

Variable np : numpy.
Variable tr : trace.

(** Modelled from the spec: the calls a statement can make, the three
    functions of numpy the notebook names (the evaluator is not among
    the sources). *)
Definition apply_func (f : string) (vs : list pyval) : outcome pyval :=
  match vs with
  | [VSeries xs; VNum p] =>
      if String.eqb f "numpy.percentile" then Done (VNum (percentile np xs p))
      else Raised (NameError f)
  | [VSeries xs] =>
      if String.eqb f "numpy.mean" then Done (VNum (mean np xs))
      else if String.eqb f "numpy.std" then Done (VNum (std np xs))
      else Raised (NameError f)
  | _ => Raised (NameError f)
  end.

(** Modelled from the spec: the value of a statement (the evaluator is
    not among the sources).  A name is read from [config];
    [EVENT:column] is the column of the selected samples of the event
    class [config] gives for [EVENT]. *)
Fixpoint eval (select : option pyval) (cfg : gmap string pyval) (e : expr) : outcome pyval :=
  match e with
  | ENum q => Done (VNum q)
  | EVar x =>
      match cfg !! x with
      | Some (VInt z) => Done (VNum (inject_Z z))
      | Some (VNum q) => Done (VNum q)
      | Some _ => Raised (TypeError x)
      | None => Raised (NameError x)
      end
  | ECol ev c =>
      match cfg !! ev ≫= qualname with
      | Some cls => Done (VSeries ((λ s : sample, s c) <$> selected select (tr cls)))
      | None => Raised (NameError ev)
      end
  | ECall f actuals =>
      vs ← (fix go (es : list expr) : outcome (list pyval) :=
              match es with
              | [] => Done []
              | e :: es => v ← eval select cfg e; vs ← go es; Done (v :: vs)
              end) actuals;
      apply_func f vs
  | EBin op l r =>
      x ← eval select cfg l;
      y ← eval select cfg r;
      apply_binop op x y
  end.

(** Modelled from the spec: the positions at which a mask holds (the
    evaluator is not among the sources). *)
Fixpoint positions (i : nat) (bs : list bool) : list nat :=
  match bs with
  | [] => []
  | b :: bs => if b then i :: positions (S i) bs else positions (S i) bs
  end.

(** Modelled from the spec: [getStatement(statement, reference=False,
    select=None)] of the Analyzer (bart/common/Analyzer.py is not among
    the sources).  With [reference] a mask is answered by the index of
    the samples at which it holds. *)
Definition getStatement (cfg : gmap string pyval) (statement : string)
    (reference : bool) (select : option pyval) : outcome pyval :=
  match parse statement with
  | None => Raised (Exn "ValueError" statement)
  | Some e =>
      v ← eval select cfg e;
      match v with
      | VMask bs => Done (if reference then VIndex (positions 0 bs) else v)
      | _ => Done v
      end
  end.

(** Modelled from the spec: [assertStatement(statement, select=None)]
    of the Analyzer (bart/common/Analyzer.py is not among the sources),
    the statement taken as one truth value: a mask holds when it holds
    at every sample. *)
Definition assertStatement (cfg : gmap string pyval) (statement : string)
    (select : option pyval) : outcome pyval :=
  v ← getStatement cfg statement false select;
  match v with
  | VBool b => Done (VBool b)
  | VMask bs => Done (VBool (forallb id bs))
  | _ => Raised (Exn "ValueError" "Result is not boolean")
  end.

(** Modelled from the spec: the keyword arguments of the two methods and
    their defaults (bart/common/Analyzer.py is not among the sources). *)
Fixpoint keyword (name : string) (kw : list (string * pyval)) : option pyval :=
  match kw with
  | [] => None
  | (k, v) :: kw => if String.eqb k name then Some v else keyword name kw
  end.

(** Modelled from the spec: [reference], False when not given
    (bart/common/Analyzer.py is not among the sources). *)
Definition kw_reference (kw : list (string * pyval)) : bool :=
  match keyword "reference" kw with
  | Some (VBool b) => b
  | _ => false
  end.

(** Modelled from the spec: [select], None when not given
    (bart/common/Analyzer.py is not among the sources). *)
Definition kw_select (kw : list (string * pyval)) : option pyval :=
  match keyword "select" kw with
  | Some VNone | None => None
  | Some v => Some v
  end.

(** The result of an evaluation as the answer of a call. *)
Definition to_answer (o : outcome pyval) : answer :=
  match o with
  | Done v => Returns v
  | Raised e => Raises e
  end.

(** The dotted name of the class the notebook imports. *)
Definition Analyzer_class : string := "bart.common.Analyzer.Analyzer".

(** Modelled from the spec: the two libraries as the notebook calls them
    (neither trappy nor bart/common/Analyzer.py is among the sources).
    [trappy.Run] answers a run object for the trace [tr];
    [Analyzer(run, config)] keeps the run and the [config] object; its
    two methods evaluate a statement against [config] as it is at the
    call. *)
Definition analyzer : Library := λ c,
  match callee c with
  | VAttr (VExt m) a =>
      if String.eqb m "trappy" && String.eqb a "Run" then
        Returns (VInst "trappy.Run" (args c))
      else if String.eqb m "bart.common.Analyzer" && String.eqb a "Analyzer" then
        match args c with
        | [r; VRef l] => Returns (VInst Analyzer_class [r; VRef l])
        | _ => Raises (TypeError "Analyzer")
        end
      else Raises (Exn "AttributeError" a)
  | VAttr (VInst cls [r; VRef l]) a =>
      match seen c !! l, args c with
      | Some cfg, [VStr statement] =>
          if negb (String.eqb cls Analyzer_class) then Raises (Exn "AttributeError" a)
          else if String.eqb a "getStatement" then
            to_answer (getStatement cfg statement (kw_reference (kwargs c)) (kw_select (kwargs c)))
          else if String.eqb a "assertStatement" then
            to_answer (assertStatement cfg statement (kw_select (kwargs c)))
          else Raises (Exn "AttributeError" a)
      | _, _ => Raises (TypeError a)
      end
  | _ => Raises (TypeError "call")
  end.

End Evaluator.

(** ** A small trace to run the notebook on *)

(** A sample given by the columns that are not zero. *)
Definition row (l : list (string * Q)) : sample :=
  λ c, default 0%Q ((λ e, e.2.2) <$> list_find (λ e, e.1 = c) l).

(** Two samples of the cluster '000000f0' (one idle and drawing no power,
    one loaded), and one thermal zone with two samples: in the second the
    zone is above the control temperature and the power granted equals
    the sustainable power. *)
Definition demo_trace : trace := λ cls,
  if String.eqb cls "trappy.cpu_power.CpuInPower" then
    [(VStr "000000f0",
      [row [("load0", 0%Q); ("load1", 0%Q); ("load2", 0%Q); ("load3", 0%Q); ("dynamic_power", 0%Q)];
       row [("load0", 40%Q); ("load1", 0%Q); ("load2", 10%Q); ("load3", 0%Q); ("dynamic_power", 900%Q)]])]
  else if String.eqb cls "trappy.thermal.Thermal" then
    [(VInt 0, [row [("temp", 70000%Q)]; row [("temp", 78000%Q)]])]
  else if String.eqb cls "trappy.thermal.ThermalGovernor" then
    [(VInt 0, [row [("current_temperature", 70000%Q)]; row [("current_temperature", 78000%Q)]])]
  else if String.eqb cls "trappy.pid_controller.PIDController" then
    [(VInt 0, [row [("output", 3000%Q)]; row [("output", 2500%Q)]])]
  else [].

(** The largest and the smallest number of a series. *)
Definition largest (xs : list Q) : Q := foldr (λ a b, if Qle_bool a b then b else a) 0%Q xs.
Definition smallest (xs : list Q) : Q :=
  foldr (λ a b, if Qle_bool a b then a else b) (largest xs) xs.

(** Stand-ins for numpy on the small trace: the largest sample for a
    high percentile, the arithmetic mean, and half the spread between
    the extremes for the deviation. *)
Definition demo_numpy : numpy :=
  Numpy (λ xs _, largest xs)
        (λ xs, Qred (foldr Qplus 0%Q xs / inject_Z (Z.of_nat (length xs))))
        (λ xs, Qred ((largest xs - smallest xs) / 2)%Q).

(** The modelled libraries on the small trace. *)
Definition demo : Library := analyzer demo_numpy demo_trace.

(** ** The calls the notebook makes and the states it goes through *)

(** The values cells 2 and 3 bind to [TRACE], [BIG] and [LITTLE]. *)
Definition TRACE : string := "/Users/kapileshwarsingh/AnalysisRawData/LPC/thermal".
Definition BIG : pyval := VStr "000000f0".
Definition LITTLE : pyval := VStr "0000000f".

(** The call of cell 2, of cell 3, and of a method of the Analyzer on a
    statement. *)
Definition run_call (h : store) : call :=
  Call (VAttr (VExt "trappy") "Run") [VStr TRACE; VStr "SomeBenchMark"] [] h.

Definition analyzer_call (r : pyval) (h : store) : call :=
  Call (VAttr (VExt "bart.common.Analyzer") "Analyzer") [r; VRef 0] [] h.

Definition statement_call (t : pyval) (method statement : string)
    (kw : list (string * pyval)) (h : store) : call :=
  Call (VAttr t method) [VStr statement] kw h.

(** The keywords of the three checks, [reference=True, select=...]. *)
Definition referenced (select : pyval) : list (string * pyval) :=
  [("reference", VBool true); ("select", select)].

(** The heap once cell 1 has run: one dict, [config]. *)
Definition config_store (temp_qrt std_pct : Z) : store :=
  <[0%nat := thermal_config temp_qrt std_pct]> ∅.

(** The state once cell 1 has run. *)
Definition configured (temp_qrt std_pct : Z) : nb_state :=
  State (<["config" := VRef 0]> (<["trappy" := VExt "trappy"]> ∅))
        (config_store temp_qrt std_pct)
        [EvImport "trappy"].

(** The global names once cell 2 has run, [r] being the run. *)
Definition loaded_globals (r : pyval) : gmap string pyval :=
  <["run" := r]> (<["TRACE" := VStr TRACE]> (globals (configured 95 5))).

(** The state once cell 3 has run, [r] and [t] being what the libraries
    answered for the run and for the Analyzer. *)
Definition ready (temp_qrt std_pct : Z) (r t : pyval) : nb_state :=
  State (<["LITTLE" := LITTLE]> (<["BIG" := BIG]> (<["t" := t]> (
           <["Analyzer" := VAttr (VExt "bart.common.Analyzer") "Analyzer"]> (loaded_globals r)))))
        (config_store temp_qrt std_pct)
        [EvImport "trappy"; EvCall (run_call (config_store temp_qrt std_pct));
         EvImport "bart.common.Analyzer";
         EvCall (analyzer_call r (config_store temp_qrt std_pct))].

(** A state that differs in the binding of one global name only. *)
Definition rebind (name : string) (v : pyval) (s : nb_state) : nb_state :=
  State (<[name := v]> (globals s)) (heap s) (events s).

(** [needle] occurs in [s]. *)
Fixpoint occurs (needle s : string) : bool :=
  String.prefix needle s ||
  match s with
  | EmptyString => false
  | String _ r => occurs needle r
  end.

(** What a check does from a state, told by the library's answer to
    its call: the exception of the library, or the failure of [len], or
    one line. *)
Definition checked (lib : Library) (c : call) (pass fail : string) (s : nb_state) :
    outcome unit * nb_state :=
  match lib c with
  | Raises e => (Raised e, State (globals s) (heap s) (events s ++ [EvCall c]))
  | Returns r =>
      let g := <["result" := r]> (globals s) in
      match py_len (heap s) r with
      | None => (Raised (TypeError "len"), State g (heap s) (events s ++ [EvCall c]))
      | Some n =>
          (Done tt,
           State g (heap s) (events s ++ [EvCall c; EvPrint (if truthy n then fail else pass)]))
      end
  end.

(** What a cell that ends in a call does: the exception of the library,
    or the answer put on display. *)
Definition shown (lib : Library) (c : call) (s : nb_state) : outcome unit * nb_state :=
  match lib c with
  | Raises e => (Raised e, State (globals s) (heap s) (events s ++ [EvCall c]))
  | Returns v => (Done tt, State (globals s) (heap s) (events s ++ [EvCall c; EvDisplay v]))
  end.


(** A check reports by one line: from [s] it makes the call [c] and
    then either passes the library's exception on, or fails in [len], or
    prints one line, PASS when the answer is empty and FAIL when not. *)
Definition reports (lib : Library) (chk : M unit) (c : call) (s : nb_state) : Prop :=
  ∃ new, events (chk s).2 = (events s ++ EvCall c :: new)%list ∧
  match lib c with
  | Raises e => (chk s).1 = Raised e ∧ new = []
  | Returns r =>
      match py_len (heap s) r with
      | Some n =>
          (chk s).1 = Done tt ∧
          ∃ line, new = [EvPrint line] ∧
                  String.prefix (if (n =? 0)%nat then "PASS:" else "FAIL:") line = true
      | None => (chk s).1 = Raised (TypeError "len") ∧ new = []
      end
  end.

(** A cell shows the answer of its call: from [s] it makes the call [c]
    and then either passes the library's exception on or displays the
    answer as it is. *)
Definition shows (lib : Library) (cell : M unit) (c : call) (s : nb_state) : Prop :=
  ∃ new, events (cell s).2 = (events s ++ EvCall c :: new)%list ∧
  match lib c with
  | Raises e => (cell s).1 = Raised e ∧ new = []
  | Returns v => (cell s).1 = Done tt ∧ new = [EvDisplay v]
  end.

(** How many calls of a kind a record holds. *)
Definition count (p : call → bool) (evs : list event) : nat :=
  length (List.filter p (calls evs)).

(** Code that leaves the heap and every global name but [result] as
    they were. *)
Definition writes_result_only (c : M unit) : Prop :=
  ∀ s, heap (c s).2 = heap s ∧ ∀ x, x ≠ "result" → globals (c s).2 !! x = globals s !! x.


(** The lines the notebook can print. *)
Definition verdict_lines : list string :=
  [PASS_BIG; FAIL_BIG; PASS_LITTLE; FAIL_LITTLE; PASS_GOVERNOR; FAIL_GOVERNOR].

(** The statements of the six calls, in order. *)
Definition statements : list string :=
  [stmt_load_power; stmt_load_power; stmt_governor; stmt_percentile; stmt_mean; stmt_std_pct].

(** The record of a run that reaches the last cell: [r] and [t] are the
    run and the Analyzer, [n1] and [n3] the lengths of the answers to the
    load and governor statements, [v5] and [v6] the answers to the two
    [assertStatement] calls, [last] the answer to the last call. *)
Definition full_record (a b : Z) (r t : pyval) (n1 n3 : nat) (v5 v6 : pyval)
    (last : answer) : list event :=
  let h := config_store a b in
  [EvImport "trappy"; EvCall (run_call h);
   EvImport "bart.common.Analyzer"; EvCall (analyzer_call r h);
   EvCall (statement_call t "getStatement" stmt_load_power (referenced BIG) h);
   EvPrint (if truthy n1 then FAIL_BIG else PASS_BIG);
   EvCall (statement_call t "getStatement" stmt_load_power (referenced BIG) h);
   EvPrint (if truthy n1 then FAIL_LITTLE else PASS_LITTLE);
   EvCall (statement_call t "getStatement" stmt_governor (referenced (VInt 0)) h);
   EvPrint (if truthy n3 then FAIL_GOVERNOR else PASS_GOVERNOR);
   EvCall (statement_call t "assertStatement" stmt_percentile [] h);
   EvDisplay v5;
   EvCall (statement_call t "assertStatement" stmt_mean [("select", VInt 0)] h);
   EvDisplay v6;
   EvCall (statement_call t "getStatement" stmt_std_pct [("select", VInt 0)] h)]
  ++ match last with Returns v => [EvDisplay v] | Raises _ => [] end.

(** What the statement of the load check says of a sample: the four
    loads sum to zero and the dynamic power is above zero. *)
Definition idle_but_powered (s : sample) : Prop :=
  (s "load0" + s "load1" + s "load2" + s "load3" == 0 ∧ 0 < s "dynamic_power")%Q.

(** The same for the governor check, of the samples of the governor and
    of the PID controller at one position. *)
Definition over_budget (g p : sample) : Prop :=
  (77000 < g "current_temperature" ∧ 2500 < p "output")%Q.

(** One column of a list of samples. *)
Definition column (c : string) (l : list sample) : list Q := (λ s : sample, s c) <$> l.

(** The samples each statement of the notebook reads from a trace:
    those of the cluster '000000f0' of the cpu input power event, those
    of zone 0 of the governor and of the PID controller, and the
    temperatures of the thermal event, of every zone or of zone 0. *)
Definition big_samples (tr : trace) : list sample :=
  selected (Some BIG) (tr "trappy.cpu_power.CpuInPower").
Definition governor_samples (tr : trace) : list sample :=
  selected (Some (VInt 0)) (tr "trappy.thermal.ThermalGovernor").
Definition pid_samples (tr : trace) : list sample :=
  selected (Some (VInt 0)) (tr "trappy.pid_controller.PIDController").
Definition all_temps (tr : trace) : list Q :=
  column "temp" (selected None (tr "trappy.thermal.Thermal")).
Definition zone_temps (tr : trace) : list Q :=
  column "temp" (selected (Some (VInt 0)) (tr "trappy.thermal.Thermal")).

(** The masks the two checked statements evaluate to, as the evaluator
    builds them from the columns. *)
Definition load_power_mask (tr : trace) : list bool :=
  zip_with andb
    ((λ x, Qeq_bool x 0) <$>
       zip_with Qplus
         (zip_with Qplus
            (zip_with Qplus (column "load0" (big_samples tr)) (column "load1" (big_samples tr)))
            (column "load2" (big_samples tr)))
         (column "load3" (big_samples tr)))
    ((λ x, Qlt_bool 0 x) <$> column "dynamic_power" (big_samples tr)).

Definition governor_mask (tr : trace) : list bool :=
  zip_with andb
    ((λ x, Qlt_bool (inject_Z 77000) x) <$> column "current_temperature" (governor_samples tr))
    ((λ x, Qlt_bool (inject_Z 2500) x) <$> column "output" (pid_samples tr)).

(** The objects the modelled libraries answer for the run and for the
    Analyzer. *)
Definition run_object : pyval := VInst "trappy.Run" [VStr TRACE; VStr "SomeBenchMark"].
Definition analyzer_object : pyval := VInst Analyzer_class [run_object; VRef 0].

(** ** Libraries that fail, and answers that are not empty *)

(** No trace at the path: every call, [trappy.Run] first, raises. *)
Definition no_trace : Library := λ c, Raises (Exn "IOError" TRACE).

(** The trace loads and the Analyzer cannot be built. *)
Definition no_analyzer : Library := λ c,
  if is_call_of "Run" c then Returns run_object else Raises (TypeError "Analyzer").

(** The two constructors answer their objects and every statement is
    answered by an index of one sample: every check fails. *)
Definition offending : Library := λ c,
  if is_call_of "Run" c then Returns run_object
  else if is_call_of "Analyzer" c then Returns analyzer_object
  else Returns (VIndex [0%nat]).


(** The five cells that evaluate statements. *)
Definition assertion_cells (lib : Library) : list (M unit) :=
  [cell_load_power lib; check_governor lib; cell_percentile lib; cell_mean lib;
   cell_std_pct lib].

(** * Properties of the notebook, for every behaviour of the libraries *)

Section Facts.

Variable lib : Library.

Lemma configuration_runs a b :
  cell_configuration_with a b initial = (Done tt, configured a b).
Proof. vm_compute. reflexivity. Qed.

Ltac nb_unfold :=
  unfold import_, from_import, event_class, constant;
  unfold load, assign, len, print, display, invoke, setitem, new_dict, getattr;
  unfold emit, mbind, M_bind, mret, M_ret;
  cbn [globals heap events callee args kwargs seen getattr fst snd].

Ltac nb_step :=
  first
  [ rewrite lookup_insert_eq
  | rewrite lookup_insert_ne by done
  | match goal with
    | H : ?m !! ?k = _ |- context [?m !! ?k] => rewrite H
    | H : lib ?c = _ |- context [lib ?c] => rewrite H
    | H : py_len ?h ?v = _ |- context [py_len ?h ?v] => rewrite H
    | H : truthy ?n = _ |- context [truthy ?n] => rewrite H
    | |- context [match lib ?c with _ => _ end] => destruct (lib c) eqn:?
    | |- context [match py_len ?h ?v with _ => _ end] => destruct (py_len h v) eqn:?
    | |- context [if truthy ?n then _ else _] => destruct (truthy n) eqn:?
    end ];
  cbn [globals heap events callee args kwargs seen getattr fst snd].

Ltac nb_run := nb_unfold; repeat nb_step.

Lemma setup_runs a b :
  setup_with lib a b initial =
  match lib (run_call (config_store a b)) with
  | Raises e =>
      (Raised e,
       State (<["TRACE" := VStr TRACE]> (globals (configured a b))) (config_store a b)
             [EvImport "trappy"; EvCall (run_call (config_store a b))])
  | Returns r =>
      match lib (analyzer_call r (config_store a b)) with
      | Raises e =>
          (Raised e,
           State (<["Analyzer" := VAttr (VExt "bart.common.Analyzer") "Analyzer"]> (loaded_globals r))
                 (config_store a b)
                 [EvImport "trappy"; EvCall (run_call (config_store a b));
                  EvImport "bart.common.Analyzer";
                  EvCall (analyzer_call r (config_store a b))])
      | Returns t => (Done tt, ready a b r t)
      end
  end.
Proof.
  unfold setup_with.
  change ((cell_configuration_with a b;; cell_run_object lib;; cell_analyzer lib) initial)
    with (match cell_configuration_with a b initial with
          | (Done _, s) => (cell_run_object lib;; cell_analyzer lib) s
          | (Raised e, s) => (Raised e, s)
          end).
  rewrite configuration_runs.
  unfold cell_run_object, cell_analyzer, configured, ready, loaded_globals, run_call,
    analyzer_call, TRACE.
  nb_run; reflexivity.
Qed.

Lemma bind_run {A B} (m : M A) (f : A → M B) s :
  (m ≫= f) s =
  match m s with
  | (Done a, s') => f a s'
  | (Raised e, s') => (Raised e, s')
  end.
Proof. reflexivity. Qed.

(** *** Each cell, from any state in which its names are bound *)

Lemma check_big_runs s t big :
  globals s !! "t" = Some t → globals s !! "BIG" = Some big →
  check_big lib s =
  checked lib (statement_call t "getStatement" stmt_load_power (referenced big) (heap s))
    PASS_BIG FAIL_BIG s.
Proof.
  intros Ht Hb. unfold check_big, checked, statement_call, referenced.
  nb_run; rewrite <- ?app_assoc; reflexivity.
Qed.

Lemma check_little_runs s t big :
  globals s !! "t" = Some t → globals s !! "BIG" = Some big →
  check_little lib s =
  checked lib (statement_call t "getStatement" stmt_load_power (referenced big) (heap s))
    PASS_LITTLE FAIL_LITTLE s.
Proof.
  intros Ht Hb. unfold check_little, checked, statement_call, referenced.
  nb_run; rewrite <- ?app_assoc; reflexivity.
Qed.

Lemma check_governor_runs s t :
  globals s !! "t" = Some t →
  check_governor lib s =
  checked lib (statement_call t "getStatement" stmt_governor (referenced (VInt 0)) (heap s))
    PASS_GOVERNOR FAIL_GOVERNOR s.
Proof.
  intros Ht. unfold check_governor, checked, statement_call, referenced.
  nb_run; rewrite <- ?app_assoc; reflexivity.
Qed.

Lemma cell_percentile_runs s t :
  globals s !! "t" = Some t →
  cell_percentile lib s =
  shown lib (statement_call t "assertStatement" stmt_percentile [] (heap s)) s.
Proof.
  intros Ht. unfold cell_percentile, shown, statement_call.
  nb_run; rewrite <- ?app_assoc; reflexivity.
Qed.

Lemma cell_mean_runs s t :
  globals s !! "t" = Some t →
  cell_mean lib s =
  shown lib (statement_call t "assertStatement" stmt_mean [("select", VInt 0)] (heap s)) s.
Proof.
  intros Ht. unfold cell_mean, shown, statement_call.
  nb_run; rewrite <- ?app_assoc; reflexivity.
Qed.

Lemma cell_std_pct_runs s t :
  globals s !! "t" = Some t →
  cell_std_pct lib s =
  shown lib (statement_call t "getStatement" stmt_std_pct [("select", VInt 0)] (heap s)) s.
Proof.
  intros Ht. unfold cell_std_pct, shown, statement_call.
  nb_run; rewrite <- ?app_assoc; reflexivity.
Qed.

Ltac nb_lookup :=
  cbn [globals heap events]; rewrite ?lookup_insert_ne by done;
  first [ eassumption | reflexivity | apply lookup_insert_eq ].

(** One cell further: its lemma, then the cases of the library's
    answer. *)
Ltac nb_cell lem :=
  rewrite ?bind_run; erewrite lem by nb_lookup;
  unfold checked, shown; cbn [globals heap events];
  repeat match goal with
    | H : lib ?c = _ |- context [lib ?c] => rewrite H
    | |- context [match lib ?c with _ => _ end] => destruct (lib c) eqn:?
    | H : py_len ?h ?v = _ |- context [py_len ?h ?v] => rewrite H
    | |- context [match py_len ?h ?v with _ => _ end] => destruct (py_len h v) eqn:?
    end;
  cbn [globals heap events fst snd].

Ltac nb_assertions :=
  unfold assertions, cell_load_power;
  nb_cell check_big_runs; try nb_cell check_little_runs;
  try nb_cell check_governor_runs; try nb_cell cell_percentile_runs;
  try nb_cell cell_mean_runs; try nb_cell cell_std_pct_runs.

(** Runs the whole notebook symbolically: one goal for each way the
    libraries can answer. *)
Ltac nb_start :=
  unfold notebook, notebook_with; rewrite bind_run, setup_runs;
  destruct (lib (run_call _)) as [?r|?e] eqn:Hrun;
  [ match goal with
    | |- context [lib (analyzer_call ?r ?h)] =>
        destruct (lib (analyzer_call r h)) as [?t|?e] eqn:Hctor
    end | ];
  [ unfold ready; nb_assertions | | ];
  cbn [fst snd events globals heap calls printed displayed imports omap list_omap app].



(** *** What the assertion cells leave alone *)

Ltac nb_any :=
  nb_unfold;
  repeat (first
    [ rewrite lookup_insert_eq
    | rewrite lookup_insert_ne by done
    | match goal with
      | H : ?m !! ?k = _ |- context [?m !! ?k] => rewrite H
      | H : lib ?c = _ |- context [lib ?c] => rewrite H
      | H : py_len ?h ?v = _ |- context [py_len ?h ?v] => rewrite H
      | |- context [match ?m !! ?k with _ => _ end] => destruct (m !! k) eqn:?
      | |- context [match lib ?c with _ => _ end] => destruct (lib c) eqn:?
      | |- context [match py_len ?h ?v with _ => _ end] => destruct (py_len h v) eqn:?
      | |- context [if truthy ?n then _ else _] => destruct (truthy n) eqn:?
      end ];
    cbn [globals heap events callee args kwargs seen fst snd rebind]).

Lemma writes_result_only_bind (c1 c2 : M unit) :
  writes_result_only c1 → writes_result_only c2 → writes_result_only (c1;; c2).
Proof.
  intros H1 H2 s. rewrite bind_run.
  destruct (H1 s) as [Hh Hg]. destruct (c1 s) as [[[]|e] s1]; cbn [snd] in *.
  - destruct (H2 s1) as [Hh' Hg']. split; [ congruence | ].
    intros x Hx. rewrite Hg', Hg; done.
  - done.
Qed.

Ltac frame_cell :=
  intros s; nb_any; (split; [ reflexivity | ]); intros x Hx;
  rewrite ?lookup_insert_ne by done; reflexivity.

Lemma assertions_write_result_only : writes_result_only (assertions lib).
Proof.
  unfold assertions, cell_load_power.
  repeat apply writes_result_only_bind;
    unfold cell_percentile, cell_mean, cell_std_pct; frame_cell.
Qed.




(** C6. Whatever the libraries answer, the notebook constructs
    [trappy.Run] exactly once and the [Analyzer] at most once (once when
    the run was loaded); every statement is evaluated by a method of the
    object that one constructor answered for that one run, and sees the
    dict objects as they were when it was built; when the notebook has
    run, [run] and [t] are still bound to what the two constructors
    answered and [config] to the same, unchanged dict object; and from
    any state the assertion cells leave the heap (so [config]) and every
    global name except [result] (so [run], [config] and [t]) as they
    found them. *)
Theorem one_run_one_analyzer :
  let s := (notebook lib initial).2 in
  count (is_call_of "Run") (events s) = 1%nat
  ∧ (count (is_call_of "Analyzer") (events s) ≤ 1)%nat
  ∧ (∀ r, lib (run_call (config_store 95 5)) = Returns r →
          count (is_call_of "Analyzer") (events s) = 1%nat)
  ∧ Forall (λ c, is_entry c = true →
               ∃ r t m, lib (run_call (config_store 95 5)) = Returns r
                        ∧ lib (analyzer_call r (config_store 95 5)) = Returns t
                        ∧ callee c = VAttr t m
                        ∧ seen c = config_store 95 5)
           (calls (events s))
  ∧ (∀ r t, lib (run_call (config_store 95 5)) = Returns r →
            lib (analyzer_call r (config_store 95 5)) = Returns t →
            globals s !! "run" = Some r ∧ globals s !! "t" = Some t
            ∧ globals s !! "config" = Some (VRef 0) ∧ heap s = config_store 95 5)
  ∧ (∀ s0, heap (assertions lib s0).2 = heap s0
           ∧ ∀ x, x ≠ "result" → globals (assertions lib s0).2 !! x = globals s0 !! x).
Proof.
  intros s.
  split; [ | split; [ | split; [ | split; [ | split ] ] ] ];
    [ | | | | | apply assertions_write_result_only ]; subst s.
  - nb_start; reflexivity.
  - nb_start; cbv; lia.
  - intros r0 Hr0. nb_start; try reflexivity; congruence.
  - nb_start; repeat (apply Forall_cons_2 || apply Forall_nil_2);
      intros Hc; try discriminate Hc; eauto 10.
  - intros r0 t0 Hr0 Ht0. nb_start; try congruence.
    all: assert (r = r0) as -> by congruence; assert (t = t0) as -> by congruence.
    all: repeat split; reflexivity.
Qed.

Ltac split_verdicts :=
  repeat match goal with
    | |- context [truthy ?n] => destruct (truthy n) eqn:?
    end.


(** C3 (as amended). On every run of the notebook that reaches its end,
    six calls evaluate a statement, four of [getStatement] and two of
    [assertStatement]; five of them are assertions (the three
    [getStatement] calls answered by a PASS or FAIL line and the two
    [assertStatement] calls), the sixth only shows a value. *)
Theorem five_assertion_calls :
  (notebook lib initial).1 = Done tt →
  let evs := events (notebook lib initial).2 in
  assertion_calls evs = 5%nat
  ∧ count is_entry evs = 6%nat
  ∧ count (is_call_of "getStatement") evs = 4%nat
  ∧ count (is_call_of "assertStatement") evs = 2%nat.
Proof.
  nb_start; intros Hend; try discriminate Hend.
  split_verdicts; repeat split; reflexivity.
Qed.

(** C4. From any state in which [t] and [BIG] are bound, each of the
    three checks makes its call and then does one of three things: when
    the library raises, the exception leaves the check as it is and
    nothing is printed; when the answer has a length, the check ends
    normally having printed exactly one line, which begins with PASS:
    when the length is zero and with FAIL: when it is not; when the
    answer has no length, [len] fails and nothing is printed.  The two
    [assertStatement] cells make their call and pass the library's
    exception on as it is, or display the answer and end normally. *)
Theorem checks_report_by_one_line s t big :
  globals s !! "t" = Some t →
  globals s !! "BIG" = Some big →
  reports lib (check_big lib)
    (statement_call t "getStatement" stmt_load_power (referenced big) (heap s)) s
  ∧ reports lib (check_little lib)
      (statement_call t "getStatement" stmt_load_power (referenced big) (heap s)) s
  ∧ reports lib (check_governor lib)
      (statement_call t "getStatement" stmt_governor (referenced (VInt 0)) (heap s)) s
  ∧ shows lib (cell_percentile lib)
      (statement_call t "assertStatement" stmt_percentile [] (heap s)) s
  ∧ shows lib (cell_mean lib)
      (statement_call t "assertStatement" stmt_mean [("select", VInt 0)] (heap s)) s.
Proof.
  intros Ht Hb. unfold reports, shows.
  rewrite (check_big_runs s t big Ht Hb), (check_little_runs s t big Ht Hb),
    (check_governor_runs s t Ht), (cell_percentile_runs s t Ht), (cell_mean_runs s t Ht).
  unfold checked, shown.
  repeat split;
    match goal with |- context [lib ?c] => destruct (lib c) as [r|e] end;
    try (eexists; split; [ reflexivity | done ]).
  all: destruct (py_len (heap s) r) as [[|n]|];
    (eexists; split; [ reflexivity | ]); cbn [fst snd]; eauto.
Qed.

(** C7. On every run of the notebook that reaches its end: the modules
    imported are trappy and bart.common.Analyzer, in that order, and no
    global [numpy] exists; each of the six statements goes to the
    Analyzer as the one positional argument of a call, as a string;
    every value the notebook displays is the answer of such a call,
    unchanged; every line it prints is one of six fixed lines; and the
    statements that name numpy are the last three. *)
Theorem statements_are_delegated :
  (notebook lib initial).1 = Done tt →
  let s := (notebook lib initial).2 in
  let entries := List.filter is_entry (calls (events s)) in
  imports (events s) = ["trappy"; "bart.common.Analyzer"]
  ∧ globals s !! "numpy" = None
  ∧ args <$> entries = (λ st, [VStr st]) <$> statements
  ∧ Forall2 (λ c v, lib c = Returns v) (drop 3 entries) (displayed (events s))
  ∧ Forall (λ l, l ∈ verdict_lines) (printed (events s))
  ∧ List.filter (occurs "numpy") statements = [stmt_percentile; stmt_mean; stmt_std_pct].
Proof.
  nb_start; intros Hend; try discriminate Hend.
  split; [ reflexivity | ]. split; [ reflexivity | ]. split; [ reflexivity | ].
  split; [ repeat constructor; assumption | ].
  split; [ | reflexivity ].
  split_verdicts; repeat constructor; unfold verdict_lines; set_solver.
Qed.

(** The record of a run in which every call but the last returns, the
    two checked answers having a length. *)
Lemma full_run a b r t v1 n1 v3 n3 v5 v6 :
  let h := config_store a b in
  lib (run_call h) = Returns r →
  lib (analyzer_call r h) = Returns t →
  lib (statement_call t "getStatement" stmt_load_power (referenced BIG) h) = Returns v1 →
  py_len h v1 = Some n1 →
  lib (statement_call t "getStatement" stmt_governor (referenced (VInt 0)) h) = Returns v3 →
  py_len h v3 = Some n3 →
  lib (statement_call t "assertStatement" stmt_percentile [] h) = Returns v5 →
  lib (statement_call t "assertStatement" stmt_mean [("select", VInt 0)] h) = Returns v6 →
  let last := lib (statement_call t "getStatement" stmt_std_pct [("select", VInt 0)] h) in
  (notebook_with lib a b initial).1
    = match last with Returns _ => Done tt | Raises e => Raised e end
  ∧ events (notebook_with lib a b initial).2 = full_record a b r t n1 n3 v5 v6 last.
Proof.
  intros h Hr Ht H1 Hn1 H3 Hn3 H5 H6 last. subst h last.
  unfold notebook_with. rewrite bind_run, setup_runs, Hr, Ht.
  unfold ready; nb_assertions; split; reflexivity.
Qed.

(** *** When a library fails *)

(** X1. When [trappy.Run] raises, the notebook ends with that exception
    right there: the call of cell 2 is the only call made, the module of
    the Analyzer is never imported, nothing is printed or displayed, and
    neither [run] nor [t] is bound. *)
Theorem run_failure_stops_notebook e :
  lib (run_call (config_store 95 5)) = Raises e →
  let s := (notebook lib initial).2 in
  (notebook lib initial).1 = Raised e
  ∧ calls (events s) = [run_call (config_store 95 5)]
  ∧ imports (events s) = ["trappy"]
  ∧ printed (events s) = [] ∧ displayed (events s) = []
  ∧ globals s !! "run" = None ∧ globals s !! "t" = None.
Proof.
  intros H. unfold notebook, notebook_with. rewrite bind_run, setup_runs, H.
  repeat split; reflexivity.
Qed.

(** X2. When the run loads and the [Analyzer] constructor raises, the
    notebook ends with that exception inside cell 3: no statement is
    evaluated, nothing is printed or displayed, [run] and [Analyzer]
    stay bound, and [t], [BIG] and [LITTLE], which the cell binds after
    the constructor, are not. *)
Theorem analyzer_failure_stops_notebook r e :
  lib (run_call (config_store 95 5)) = Returns r →
  lib (analyzer_call r (config_store 95 5)) = Raises e →
  let s := (notebook lib initial).2 in
  (notebook lib initial).1 = Raised e
  ∧ count is_entry (events s) = 0%nat
  ∧ imports (events s) = ["trappy"; "bart.common.Analyzer"]
  ∧ printed (events s) = [] ∧ displayed (events s) = []
  ∧ globals s !! "run" = Some r
  ∧ globals s !! "Analyzer" = Some (VAttr (VExt "bart.common.Analyzer") "Analyzer")
  ∧ globals s !! "t" = None ∧ globals s !! "BIG" = None ∧ globals s !! "LITTLE" = None.
Proof.
  intros Hr He. unfold notebook, notebook_with. rewrite bind_run, setup_runs, Hr, He.
  repeat split; reflexivity.
Qed.





(** *** The cells from other states *)

Lemma bind_assoc {A B C} (m : M A) (f : A → M B) (g : B → M C) s :
  ((m ≫= f) ≫= g) s = (m ≫= λ a, f a ≫= g) s.
Proof. rewrite !bind_run. destruct (m s) as [[a|e] s1]; reflexivity. Qed.

(** What cell 1 does from any state. *)
Lemma configuration_effect a b s :
  cell_configuration_with a b s =
  (Done tt,
   State (<["config" := VRef (fresh (dom (heap s)))]> (<["trappy" := VExt "trappy"]> (globals s)))
         (<[fresh (dom (heap s)) := thermal_config a b]> (heap s))
         (events s ++ [EvImport "trappy"])).
Proof.
  unfold cell_configuration_with, thermal_config, trappy_class. nb_unfold.
  repeat (first [ rewrite lookup_insert_eq | rewrite lookup_insert_ne by done ];
          cbn [globals heap events]).
  rewrite !insert_insert_eq. reflexivity.
Qed.


Lemma fresh_config_store a b : fresh (dom (config_store a b)) = 1%nat.
Proof. vm_compute. reflexivity. Qed.

(** X6. Running cell 1 again once the Analyzer exists, with other
    numbers, does not reach the Analyzer: [config] is then bound to a new
    dict object, [t] is unchanged, the object the Analyzer was given
    still holds the old dictionary, and the assertion cells run after it
    still call methods of [t], which see the old dictionary in that
    object. *)
Theorem rerun_configuration_keeps_old_config a b a' b' r t :
  let s := (cell_configuration_with a' b' (ready a b r t)).2 in
  globals s !! "t" = Some t
  ∧ globals s !! "config" = Some (VRef 1)
  ∧ heap s !! 0%nat = Some (thermal_config a b)
  ∧ heap s !! 1%nat = Some (thermal_config a' b')
  ∧ Forall (λ c, ∃ m, callee c = VAttr t m
                      ∧ seen c !! 0%nat = Some (thermal_config a b))
           (drop 2 (calls (events (assertions lib s).2))).
Proof.
  rewrite configuration_effect. cbn [snd]. unfold ready at 1 2 3.
  cbn [heap globals events]. rewrite fresh_config_store.
  split; [ reflexivity | ]. split; [ reflexivity | ].
  split; [ reflexivity | ]. split; [ reflexivity | ].
  nb_assertions.
  all: cbn [calls omap list_omap app drop]; repeat constructor; eexists; split; reflexivity.
Qed.

(** X7. Each of the five cells that evaluate a statement needs the
    Analyzer: from a state in which [t] is not bound it stops with a
    NameError for [t], before any call, leaving the state as it was. *)
Theorem assertion_cells_need_t s :
  globals s !! "t" = None →
  Forall (λ cell : M unit, cell s = (Raised (NameError "t"), s)) (assertion_cells lib).
Proof.
  intros Ht. unfold assertion_cells, cell_load_power, check_big, check_governor,
    cell_percentile, cell_mean, cell_std_pct.
  repeat constructor; nb_unfold; rewrite Ht; reflexivity.
Qed.



Lemma check_big_forgets_result s v :
  (check_big lib (rebind "result" v s)).1 = (check_big lib s).1
  ∧ events (check_big lib (rebind "result" v s)).2 = events (check_big lib s).2
  ∧ ((check_big lib s).1 = Done tt →
     check_big lib (rebind "result" v s) = check_big lib s).
Proof.
  unfold check_big, rebind. nb_any.
  all: repeat split; try reflexivity; try discriminate.
  all: intros _; rewrite insert_insert_eq; reflexivity.
Qed.

(** X9. A [result] left by an earlier run is never read: from any state,
    with [result] bound to any value, the assertion cells end the same
    way with the same record of calls, lines and displayed values.  And
    when the governor check has been answered, [result] holds that
    answer at the end of the notebook. *)
Theorem stale_result_is_never_read :
  (∀ s v, (assertions lib (rebind "result" v s)).1 = (assertions lib s).1
          ∧ events (assertions lib (rebind "result" v s)).2 = events (assertions lib s).2)
  ∧ (∀ c v, calls (events (notebook lib initial).2) !! 4%nat = Some c →
            lib c = Returns v →
            globals (notebook lib initial).2 !! "result" = Some v).
Proof.
  split.
  - intros s v. unfold assertions, cell_load_power. rewrite !bind_assoc.
    rewrite (bind_run (check_big lib) _ (rebind "result" v s)), (bind_run (check_big lib) _ s).
    destruct (check_big_forgets_result s v) as (Ho & He & Hsame).
    destruct (check_big lib s) as [[[]|e] s1] eqn:E.
    + rewrite (Hsame eq_refl). split; reflexivity.
    + destruct (check_big lib (rebind "result" v s)) as [o' s1']. cbn [fst snd] in *.
      subst o'. split; [ reflexivity | exact He ].
  - nb_start; intros c0 ans Hc Hv; try discriminate Hc.
    all: injection Hc as <-; try congruence.
    all: rewrite lookup_insert_eq; congruence.
Qed.

End Facts.

(** * Properties of the notebook over the modelled Analyzer, for every trace *)

Section Model.

Variable np : numpy.
Variable tr : trace.

Lemma Qlt_bool_iff x y : Qlt_bool x y = true ↔ (x < y)%Q.
Proof.
  unfold Qlt_bool. rewrite negb_true_iff, <- not_true_iff_false, Qle_bool_iff.
  split; [ apply Qnot_le_lt | apply Qlt_not_le ].
Qed.

Lemma positions_lookup i bs j :
  j ∈ positions i bs ↔ ∃ k, j = (i + k)%nat ∧ bs !! k = Some true.
Proof.
  revert i. induction bs as [|b bs IH]; intros i; cbn [positions].
  - split; [ intros H; inversion H | intros (k & _ & H); discriminate H ].
  - assert (j ∈ positions (S i) bs ↔ ∃ k, j = (i + S k)%nat ∧ bs !! k = Some true) as IH'.
    { rewrite IH. split; intros (k & -> & H); exists k; split; auto; lia. }
    destruct b; [ rewrite elem_of_cons | ]; rewrite IH'; split.
    + intros [->|(k & -> & H)]; [ exists 0%nat | exists (S k) ]; split; auto; lia.
    + intros ([|k] & -> & H); [ left; lia | right; exists k; auto ].
    + intros (k & -> & H). exists (S k); auto.
    + intros ([|k] & -> & H); [ discriminate H | exists k; auto ].
Qed.

Lemma positions_empty bs :
  length (positions 0 bs) = 0%nat ↔ ∀ k, bs !! k ≠ Some true.
Proof.
  rewrite length_zero_iff_nil. split.
  - intros Hnil k Hk.
    assert (k ∈ positions 0 bs) as Hin by (apply positions_lookup; eauto).
    rewrite Hnil in Hin. inversion Hin.
  - intros Hno. destruct (positions 0 bs) as [|j l] eqn:E; [ done | exfalso ].
    assert (j ∈ positions 0 bs) as Hin by (rewrite E; left).
    apply positions_lookup in Hin as (k & _ & Hk). exact (Hno k Hk).
Qed.

(** *** The answers of the modelled Analyzer to the six calls *)

Lemma answer_run h : analyzer np tr (run_call h) = Returns run_object.
Proof. reflexivity. Qed.

Lemma answer_analyzer h :
  analyzer np tr (analyzer_call run_object h) = Returns analyzer_object.
Proof. reflexivity. Qed.

Lemma answer_load_power a b :
  analyzer np tr (statement_call analyzer_object "getStatement" stmt_load_power
                    (referenced BIG) (config_store a b))
  = Returns (VIndex (positions 0 (load_power_mask tr))).
Proof. vm_compute. reflexivity. Qed.

Lemma answer_governor a b :
  analyzer np tr (statement_call analyzer_object "getStatement" stmt_governor
                    (referenced (VInt 0)) (config_store a b))
  = Returns (VIndex (positions 0 (governor_mask tr))).
Proof. vm_compute. reflexivity. Qed.

Lemma answer_percentile a b :
  analyzer np tr (statement_call analyzer_object "assertStatement" stmt_percentile
                    [] (config_store a b))
  = Returns (VBool (Qlt_bool (percentile np (all_temps tr) (inject_Z 95))
                             (inject_Z 77000 + inject_Z 2500))).
Proof. vm_compute. reflexivity. Qed.

Lemma answer_mean a b :
  analyzer np tr (statement_call analyzer_object "assertStatement" stmt_mean
                    [("select", VInt 0)] (config_store a b))
  = Returns (VBool (Qle_bool (mean np (zone_temps tr)) (inject_Z 77000))).
Proof. vm_compute. reflexivity. Qed.

Lemma answer_std_pct a b :
  analyzer np tr (statement_call analyzer_object "getStatement" stmt_std_pct
                    [("select", VInt 0)] (config_store a b))
  = analyzer np tr (statement_call analyzer_object "getStatement" stmt_std_pct
                      [("select", VInt 0)] (config_store 95 5)).
Proof. vm_compute. reflexivity. Qed.

(** What the two masks say, sample by sample. *)
Lemma load_power_mask_lookup k :
  load_power_mask tr !! k = Some true ↔
  ∃ s, big_samples tr !! k = Some s ∧ idle_but_powered s.
Proof.
  unfold load_power_mask, column, idle_but_powered.
  rewrite !zip_with_fmap_l, !zip_with_fmap_r.
  generalize (big_samples tr) as l. intros l. revert k.
  induction l as [|s l IH]; intros k.
  - split; [ intros H; discriminate H | intros (s & H & _); discriminate H ].
  - destruct k as [|k]; [ | apply IH ].
    cbn. split.
    + intros [= H]. apply andb_true_iff in H as [H1 H2].
      apply Qeq_bool_iff in H1. apply Qlt_bool_iff in H2. exists s. auto.
    + intros (s' & [= <-] & H1 & H2). f_equal. apply andb_true_iff.
      split; [ apply Qeq_bool_iff | apply Qlt_bool_iff ]; assumption.
Qed.

Lemma governor_mask_lookup k :
  governor_mask tr !! k = Some true ↔
  ∃ g p, governor_samples tr !! k = Some g ∧ pid_samples tr !! k = Some p ∧ over_budget g p.
Proof.
  unfold governor_mask, column, over_budget.
  rewrite lookup_zip_with_Some. split.
  - intros (x & y & Hxy & Hx & Hy).
    apply list_lookup_fmap_Some in Hx as (cx & -> & Hx).
    apply list_lookup_fmap_Some in Hy as (cy & -> & Hy).
    apply list_lookup_fmap_Some in Hx as (g & -> & Hg).
    apply list_lookup_fmap_Some in Hy as (p & -> & Hp).
    symmetry in Hxy. apply andb_true_iff in Hxy as [H1 H2].
    apply Qlt_bool_iff in H1, H2. exists g, p. auto.
  - intros (g & p & Hg & Hp & H1 & H2).
    exists true, true. split; [ done | ].
    rewrite !list_lookup_fmap, Hg, Hp. cbn.
    split; f_equal; apply Qlt_bool_iff; assumption.
Qed.

(** The run of the notebook over the modelled Analyzer. *)
Lemma model_run a b :
  let lib := analyzer np tr in
  let last := lib (statement_call analyzer_object "getStatement" stmt_std_pct
                     [("select", VInt 0)] (config_store 95 5)) in
  (notebook_with lib a b initial).1
    = match last with Returns _ => Done tt | Raises e => Raised e end
  ∧ events (notebook_with lib a b initial).2
    = full_record a b run_object analyzer_object
        (length (positions 0 (load_power_mask tr)))
        (length (positions 0 (governor_mask tr)))
        (VBool (Qlt_bool (percentile np (all_temps tr) (inject_Z 95))
                         (inject_Z 77000 + inject_Z 2500)))
        (VBool (Qle_bool (mean np (zone_temps tr)) (inject_Z 77000)))
        last.
Proof.
  intros lib last. subst lib last. rewrite <- (answer_std_pct a b).
  apply (full_run (analyzer np tr) a b run_object analyzer_object
           (VIndex (positions 0 (load_power_mask tr))) _
           (VIndex (positions 0 (governor_mask tr))) _).
  - apply answer_run.
  - apply answer_analyzer.
  - apply answer_load_power.
  - reflexivity.
  - apply answer_governor.
  - reflexivity.
  - apply answer_percentile.
  - apply answer_mean.
Qed.

Lemma model_events :
  events (notebook (analyzer np tr) initial).2
  = full_record 95 5 run_object analyzer_object
      (length (positions 0 (load_power_mask tr)))
      (length (positions 0 (governor_mask tr)))
      (VBool (Qlt_bool (percentile np (all_temps tr) (inject_Z 95))
                       (inject_Z 77000 + inject_Z 2500)))
      (VBool (Qle_bool (mean np (zone_temps tr)) (inject_Z 77000)))
      (analyzer np tr (statement_call analyzer_object "getStatement" stmt_std_pct
                         [("select", VInt 0)] (config_store 95 5))).
Proof. apply (model_run 95 5). Qed.

Ltac read_record :=
  cbn [full_record calls printed displayed omap list_omap app lookup list_lookup].

Lemma verdict_pass n (pass fail : string) :
  pass ≠ fail → (Some (if truthy n then fail else pass) = Some pass ↔ n = 0%nat).
Proof.
  intros Hne. destruct n; cbn; split; intros H; try done.
  injection H as H. congruence.
Qed.

Lemma verdict_fail n (pass fail : string) :
  pass ≠ fail → (Some (if truthy n then fail else pass) = Some fail ↔ n ≠ 0%nat).
Proof.
  intros Hne. destruct n; cbn; split; intros H; try done.
  injection H as H. congruence.
Qed.

(** C1. Over the modelled Analyzer, for every trace: the third call of
    the notebook is [getStatement] on the load and dynamic power
    statement with [reference=True] and [select] the cluster
    '000000f0'; its answer is an index, which is empty exactly when no
    sample of that cluster has the four loads summing to zero and a
    dynamic power above zero; the first line printed is the PASS line
    of the BIG cluster exactly when the index is empty and the FAIL
    line exactly when it is not. *)
Theorem big_check_passes_iff_no_idle_power :
  let evs := events (notebook (analyzer np tr) initial).2 in
  ∃ c ix,
    calls evs !! 2%nat = Some c
    ∧ c = statement_call analyzer_object "getStatement" stmt_load_power
            [("reference", VBool true); ("select", VStr "000000f0")] (config_store 95 5)
    ∧ analyzer np tr c = Returns (VIndex ix)
    ∧ (length ix = 0%nat ↔ ∀ s, s ∈ big_samples tr → ¬ idle_but_powered s)
    ∧ (printed evs !! 0%nat = Some PASS_BIG ↔ length ix = 0%nat)
    ∧ (printed evs !! 0%nat = Some FAIL_BIG ↔ length ix ≠ 0%nat).
Proof.
  intros evs. subst evs. rewrite model_events.
  eexists _, _. split; [ reflexivity | ]. split; [ reflexivity | ].
  split; [ apply answer_load_power | ].
  split; [ | read_record; split; [ apply verdict_pass | apply verdict_fail ]; done ].
  rewrite positions_empty. split.
  - intros Hno s Hs Hbad. apply list_elem_of_lookup in Hs as [k Hk].
    apply (Hno k), load_power_mask_lookup. eauto.
  - intros Hall k Hk. apply load_power_mask_lookup in Hk as (s & Hs & Hbad).
    apply (Hall s); [ eapply list_elem_of_lookup_2; eassumption | assumption ].
Qed.

(** C10. Over the modelled Analyzer, for every trace: the fifth call of
    the notebook is [getStatement] on the governor statement with
    [reference=True] and [select=0]; its answer is the index of the
    samples at which the temperature of the governor is above 77000 and
    the output of the PID controller is above 2500; the third line
    printed is the PASS line of the governor exactly when there is no
    such sample and the FAIL line exactly when there is one; a sample
    whose output equals 2500 is never in the index. *)
Theorem governor_check_allows_sustainable_power :
  let evs := events (notebook (analyzer np tr) initial).2 in
  ∃ c ix,
    calls evs !! 4%nat = Some c
    ∧ c = statement_call analyzer_object "getStatement" stmt_governor
            [("reference", VBool true); ("select", VInt 0)] (config_store 95 5)
    ∧ analyzer np tr c = Returns (VIndex ix)
    ∧ (∀ i, i ∈ ix ↔ ∃ g p, governor_samples tr !! i = Some g
                            ∧ pid_samples tr !! i = Some p ∧ over_budget g p)
    ∧ (printed evs !! 2%nat = Some PASS_GOVERNOR ↔
       ∀ i (g p : sample), governor_samples tr !! i = Some g →
                           pid_samples tr !! i = Some p → ¬ over_budget g p)
    ∧ (printed evs !! 2%nat = Some FAIL_GOVERNOR ↔
       ∃ i g p, governor_samples tr !! i = Some g ∧ pid_samples tr !! i = Some p
                ∧ over_budget g p)
    ∧ (∀ i (g p : sample), governor_samples tr !! i = Some g → pid_samples tr !! i = Some p →
                (p "output" == 2500)%Q → i ∉ ix).
Proof.
  intros evs. subst evs. rewrite model_events.
  assert (∀ i, i ∈ positions 0 (governor_mask tr) ↔
               ∃ g p, governor_samples tr !! i = Some g
                      ∧ pid_samples tr !! i = Some p ∧ over_budget g p) as Hix.
  { intros i. rewrite positions_lookup, <- governor_mask_lookup.
    split; [ intros (k & -> & H); exact H | intros H; exists i; auto ]. }
  eexists _, _. split; [ reflexivity | ]. split; [ reflexivity | ].
  split; [ apply answer_governor | ]. split; [ exact Hix | ].
  read_record. rewrite verdict_pass, verdict_fail by done. repeat split.
  - intros Hnil i g p Hg Hp Hbad.
    assert (i ∈ positions 0 (governor_mask tr)) as Hin by (apply Hix; eauto).
    apply length_zero_iff_nil in Hnil. rewrite Hnil in Hin. inversion Hin.
  - intros Hno. apply positions_empty. intros k Hk.
    apply governor_mask_lookup in Hk as (g & p & Hg & Hp & Hbad). exact (Hno k g p Hg Hp Hbad).
  - intros Hne. destruct (positions 0 (governor_mask tr)) as [|i l]; [ done | ].
    assert (i ∈ i :: l) as Hin by left.
    apply Hix in Hin as (g & p & H). eauto.
  - intros (i & g & p & Hg & Hp & Hbad) Hnil.
    assert (i ∈ positions 0 (governor_mask tr)) as Hin by (apply Hix; eauto).
    apply length_zero_iff_nil in Hnil. rewrite Hnil in Hin. inversion Hin.
  - intros i g p Hg Hp Heq Hin. apply Hix in Hin as (g' & p' & Hg' & Hp' & _ & Hlt).
    assert (p' = p) as -> by congruence. rewrite Heq in Hlt.
    exact (Qlt_irrefl _ Hlt).
Qed.

(** C2. Over the modelled Analyzer, for every trace: the sixth call of
    the notebook is [assertStatement] on the percentile statement; its
    answer, which the cell displays, is a truth value, True exactly when
    the 95th percentile of the temperatures of the thermal event is
    below 79500 (the sum of the 77000 and 2500 of [config]) and False
    exactly when it is not. *)
Theorem percentile_assertion_threshold :
  let evs := events (notebook (analyzer np tr) initial).2 in
  ∃ c v,
    calls evs !! 5%nat = Some c
    ∧ c = statement_call analyzer_object "assertStatement" stmt_percentile []
            (config_store 95 5)
    ∧ analyzer np tr c = Returns (VBool v)
    ∧ displayed evs !! 0%nat = Some (VBool v)
    ∧ (v = true ↔ (percentile np (all_temps tr) 95 < 79500)%Q)
    ∧ (v = false ↔ ¬ (percentile np (all_temps tr) 95 < 79500)%Q).
Proof.
  intros evs. subst evs. rewrite model_events.
  eexists _, _. split; [ reflexivity | ]. split; [ reflexivity | ].
  split; [ apply answer_percentile | ]. split; [ reflexivity | ].
  change (inject_Z 77000 + inject_Z 2500)%Q with 79500%Q.
  change (inject_Z 95) with 95%Q.
  rewrite <- not_true_iff_false, Qlt_bool_iff. done.
Qed.

(** C9. Over the modelled Analyzer, for every trace: two runs of the
    notebook that differ only in the numbers given to EXPECTED_TEMP_QRT
    and EXPECTED_STD_PCT end the same way, print the same lines, display
    the same values and get the same answer to each call that evaluates
    a statement; none of the six statements names either entry. *)
Theorem unused_expectations_do_not_matter (a b a' b' : Z) :
  let lib := analyzer np tr in
  let n1 := notebook_with lib a b initial in
  let n2 := notebook_with lib a' b' initial in
  n1.1 = n2.1
  ∧ printed (events n1.2) = printed (events n2.2)
  ∧ displayed (events n1.2) = displayed (events n2.2)
  ∧ lib <$> List.filter is_entry (calls (events n1.2))
    = lib <$> List.filter is_entry (calls (events n2.2))
  ∧ Forall (λ st, occurs "EXPECTED_TEMP_QRT" st = false
                  ∧ occurs "EXPECTED_STD_PCT" st = false) statements.
Proof.
  intros lib n1 n2. subst lib n1 n2.
  destruct (model_run a b) as [Ho1 He1]. destruct (model_run a' b') as [Ho2 He2].
  cbv zeta in *. rewrite Ho1, Ho2, He1, He2.
  split; [ reflexivity | ]. split; [ reflexivity | ]. split; [ reflexivity | ].
  split; [ | repeat constructor ].
  destruct (analyzer np tr (statement_call analyzer_object "getStatement" stmt_std_pct
                              [("select", VInt 0)] (config_store 95 5)));
    vm_compute; reflexivity.
Qed.

End Model.

(** * The notebook on the small trace *)

(** The six statements, as the modelled grammar reads them. *)
Example parse_load_power :
  parse stmt_load_power =
  Some (EBin And
          (EBin Eq
             (EBin Add
                (EBin Add (EBin Add (ECol "IN" "load0") (ECol "IN" "load1"))
                   (ECol "IN" "load2"))
                (ECol "IN" "load3"))
             (ENum 0))
          (EBin Gt (ECol "IN" "dynamic_power") (ENum 0))).
Proof. vm_compute. reflexivity. Qed.

Example parse_governor :
  parse stmt_governor =
  Some (EBin And
          (EBin Gt (ECol "GOVERNOR" "current_temperature") (EVar "CONTROL_TEMP"))
          (EBin Gt (ECol "PID" "output") (EVar "SUSTAINABLE_POWER"))).
Proof. vm_compute. reflexivity. Qed.

Example parse_percentile :
  parse stmt_percentile =
  Some (EBin Lt (ECall "numpy.percentile" [ECol "THERMAL" "temp"; ENum 95])
          (EBin Add (EVar "CONTROL_TEMP") (EVar "TEMP_MARGIN"))).
Proof. vm_compute. reflexivity. Qed.

Example parse_mean :
  parse stmt_mean =
  Some (EBin Le (ECall "numpy.mean" [ECol "THERMAL" "temp"]) (EVar "CONTROL_TEMP")).
Proof. vm_compute. reflexivity. Qed.

Example parse_std_pct :
  parse stmt_std_pct =
  Some (EBin Div (EBin Mul (ECall "numpy.std" [ECol "THERMAL" "temp"]) (ENum 100))
          (ECall "numpy.mean" [ECol "THERMAL" "temp"])).
Proof. vm_compute. reflexivity. Qed.

Example parse_precedence :
  parse "a + b * c <= d & e" =
  Some (EBin And (EBin Le (EBin Add (EVar "a") (EBin Mul (EVar "b") (EVar "c"))) (EVar "d"))
          (EVar "e")).
Proof. vm_compute. reflexivity. Qed.

Example parse_unfinished : parse "a + " = None.
Proof. vm_compute. reflexivity. Qed.

(** On the small trace the notebook prints the three lines its file
    records as output, and displays True twice and then a number. *)
Example demo_prints :
  printed (events (notebook demo initial).2) = [PASS_BIG; PASS_LITTLE; PASS_GOVERNOR].
Proof. vm_compute. reflexivity. Qed.

Example demo_displays :
  displayed (events (notebook demo initial).2)
  = [VBool true; VBool true; VNum (400000 # 74000)].
Proof. vm_compute. reflexivity. Qed.

(** C3, as stated, fails: on the small trace the notebook runs to its
    end and the calls that are assertions are not four. *)
Lemma four_assertion_calls_refuted :
  (notebook demo initial).1 = Done tt
  ∧ assertion_calls (events (notebook demo initial).2) ≠ 4%nat.
Proof. split; [ vm_compute; reflexivity | vm_compute; discriminate ]. Qed.

(** On the small trace the notebook reaches its end, and the counts of
    C3 as amended are those of its record. *)
Lemma five_assertion_calls_demo :
  let evs := events (notebook demo initial).2 in
  assertion_calls evs = 5%nat
  ∧ count is_entry evs = 6%nat
  ∧ count (is_call_of "getStatement") evs = 4%nat
  ∧ count (is_call_of "assertStatement") evs = 2%nat.
Proof. apply (five_assertion_calls demo). vm_compute. reflexivity. Defined.

(** The checks and the two asserting cells on the small trace, from the
    state cell 3 leaves. *)
Lemma checks_report_by_one_line_demo :
  let s := ready 95 5 run_object analyzer_object in
  reports demo (check_big demo)
    (statement_call analyzer_object "getStatement" stmt_load_power (referenced BIG) (heap s)) s
  ∧ reports demo (check_little demo)
      (statement_call analyzer_object "getStatement" stmt_load_power (referenced BIG) (heap s)) s
  ∧ reports demo (check_governor demo)
      (statement_call analyzer_object "getStatement" stmt_governor (referenced (VInt 0)) (heap s)) s
  ∧ shows demo (cell_percentile demo)
      (statement_call analyzer_object "assertStatement" stmt_percentile [] (heap s)) s
  ∧ shows demo (cell_mean demo)
      (statement_call analyzer_object "assertStatement" stmt_mean [("select", VInt 0)] (heap s)) s.
Proof.
  apply (checks_report_by_one_line demo (ready 95 5 run_object analyzer_object)
           analyzer_object BIG); reflexivity.
Defined.

(** The imports, statement calls, displays and lines of the run on the
    small trace. *)
Lemma statements_are_delegated_demo :
  let s := (notebook demo initial).2 in
  let entries := List.filter is_entry (calls (events s)) in
  imports (events s) = ["trappy"; "bart.common.Analyzer"]
  ∧ globals s !! "numpy" = None
  ∧ args <$> entries = (λ st, [VStr st]) <$> statements
  ∧ Forall2 (λ c v, demo c = Returns v) (drop 3 entries) (displayed (events s))
  ∧ Forall (λ l, l ∈ verdict_lines) (printed (events s))
  ∧ List.filter (occurs "numpy") statements = [stmt_percentile; stmt_mean; stmt_std_pct].
Proof. apply (statements_are_delegated demo). vm_compute. reflexivity. Defined.

(** * Runs in which a library fails, or every check fails *)

(** Without a trace the notebook stops in cell 2. *)
Lemma run_failure_stops_notebook_no_trace :
  let s := (notebook no_trace initial).2 in
  (notebook no_trace initial).1 = Raised (Exn "IOError" TRACE)
  ∧ calls (events s) = [run_call (config_store 95 5)]
  ∧ imports (events s) = ["trappy"]
  ∧ printed (events s) = [] ∧ displayed (events s) = []
  ∧ globals s !! "run" = None ∧ globals s !! "t" = None.
Proof. apply (run_failure_stops_notebook no_trace). reflexivity. Defined.

(** Without an Analyzer the notebook stops in cell 3. *)
Lemma analyzer_failure_stops_notebook_no_analyzer :
  let s := (notebook no_analyzer initial).2 in
  (notebook no_analyzer initial).1 = Raised (TypeError "Analyzer")
  ∧ count is_entry (events s) = 0%nat
  ∧ imports (events s) = ["trappy"; "bart.common.Analyzer"]
  ∧ printed (events s) = [] ∧ displayed (events s) = []
  ∧ globals s !! "run" = Some run_object
  ∧ globals s !! "Analyzer" = Some (VAttr (VExt "bart.common.Analyzer") "Analyzer")
  ∧ globals s !! "t" = None ∧ globals s !! "BIG" = None ∧ globals s !! "LITTLE" = None.
Proof.
  apply (analyzer_failure_stops_notebook no_analyzer run_object); reflexivity.
Defined.

(** When every check fails the notebook still reaches its end. *)
Example offending_prints :
  printed (events (notebook offending initial).2) = [FAIL_BIG; FAIL_LITTLE; FAIL_GOVERNOR].
Proof. vm_compute. reflexivity. Qed.


(** Before cell 3 has run, no cell can evaluate a statement. *)
Lemma assertion_cells_need_t_initial :
  Forall (λ cell : M unit, cell initial = (Raised (NameError "t"), initial))
    (assertion_cells demo).
Proof. apply (assertion_cells_need_t demo initial). reflexivity. Defined.

